(** * Container platforms of ReFrame ([reframe/core/containers.py])

    A shallow embedding of the abstract [ContainerPlatform] class, of its
    four backends ([Docker], [Sarus], [Shifter], [Singularity]) and of
    [ContainerPlatformField], followed by the properties of the command
    synthesis, of validation and of the resolution of platform names. *)

From Stdlib Require Import String Ascii List Bool.
From stdpp Require Import base option list gmap strings.
Import ListNotations.
Local Open Scope string_scope.

(** ** The fragment of Python the module relies on *)

Module Py.

(** The exceptions the module can raise, or let escape.  The two raised
    by the module itself carry the message given in the source. *)
Inductive exn : Type :=
| ContainerError (msg : string)
| ValueError (msg : string)
| TypeError
| AttributeError
| KeyError.

(** The outcome of a call: a value, or a raised exception. *)
Inductive result (A : Type) : Type :=
| Return (a : A)
| Raise (e : exn).
Arguments Return {A} a.
Arguments Raise {A} e.

Definition bind {A B : Type} (m : result A) (k : A -> result B) : result B :=
  match m with
  | Return a => k a
  | Raise e => Raise e
  end.

(** [try: m except KeyError: h] *)
Definition except_KeyError {A : Type} (m : result A) (h : result A) : result A :=
  match m with
  | Raise KeyError => h
  | other => other
  end.

(** The double quote character, which the source writes inside its
    single-quoted literals. *)
Definition dq : string := String "034"%char EmptyString.

(** [f'{x}'] for [x : str | None]. *)
Definition format (x : option string) : string :=
  match x with
  | Some s => s
  | None => "None"
  end.

(** [bool(x)] for [x : str | None]: [None] and the empty string are false. *)
Definition truthy (x : option string) : bool :=
  match x with
  | None => false
  | Some EmptyString => false
  | Some (String _ _) => true
  end.

(** [bool(l)] for a list. *)
Definition nonempty {A : Type} (l : list A) : bool :=
  match l with
  | [] => false
  | _ :: _ => true
  end.

(** [x.startswith(p)] for [x : str | None]: the attribute lookup fails
    on [None]. *)
Definition startswith (x : option string) (p : string) : result bool :=
  match x with
  | Some s => Return (String.prefix p s)
  | None => Raise AttributeError
  end.

(** [sep.join(l)] *)
Definition join (sep : string) (l : list string) : string :=
  String.concat sep l.

End Py.
Import Py.

Declare Scope py_scope.
Notation "x <- m ;; k" := (bind m (fun x => k))
  (at level 100, m at next level, right associativity) : py_scope.
Local Open Scope py_scope.

(** ** The attribute surface shared by all platforms *)

(** The instance attributes declared by [ContainerPlatform], with the
    types of their [TypedField]s. *)
Record ContainerPlatform : Type := {
  image : option string;
  command : option string;
  commands : list string;
  pull_image : bool;
  mount_points : list (string * string);
  options : list string;
  workdir : option string
}.

Definition RFM_STAGEDIR : string := "/rfm_workdir".

(** [ContainerPlatform.__init__] *)
Definition __init__ : ContainerPlatform := {|
  image := None;
  command := None;
  commands := [];
  workdir := Some RFM_STAGEDIR;
  mount_points := [];
  options := [];
  pull_image := true
|}.

(** Attribute assignment [self.command = c]. *)
Definition set_command (c : option string) (self : ContainerPlatform) : ContainerPlatform := {|
  image := image self;
  command := c;
  commands := commands self;
  pull_image := pull_image self;
  mount_points := mount_points self;
  options := options self;
  workdir := workdir self
|}.

(** Attribute assignment [self.commands = cs]. *)
Definition set_commands (cs : list string) (self : ContainerPlatform) : ContainerPlatform := {|
  image := image self;
  command := command self;
  commands := cs;
  pull_image := pull_image self;
  mount_points := mount_points self;
  options := options self;
  workdir := workdir self
|}.

(** Attribute assignment [self.image = i]. *)
Definition set_image (i : option string) (self : ContainerPlatform) : ContainerPlatform := {|
  image := i;
  command := command self;
  commands := commands self;
  pull_image := pull_image self;
  mount_points := mount_points self;
  options := options self;
  workdir := workdir self
|}.

(** Attribute assignment [self.pull_image = b]. *)
Definition set_pull_image (b : bool) (self : ContainerPlatform) : ContainerPlatform := {|
  image := image self;
  command := command self;
  commands := commands self;
  pull_image := b;
  mount_points := mount_points self;
  options := options self;
  workdir := workdir self
|}.

(** Attribute assignment [self.workdir = w]. *)
Definition set_workdir (w : option string) (self : ContainerPlatform) : ContainerPlatform := {|
  image := image self;
  command := command self;
  commands := commands self;
  pull_image := pull_image self;
  mount_points := mount_points self;
  options := options self;
  workdir := w
|}.

(** ** The four backends *)

Module Docker.

Record t : Type := { base : ContainerPlatform }.

Definition __init__ : t := {| base := __init__ |}.

Definition emit_prepare_commands (self : t) : result (list string) :=
  Return (if pull_image (base self)
          then ["docker pull " ++ format (image (base self))]
          else []).

(** The local variable [run_opts] once it is complete. *)
Definition run_opts (self : t) : list string :=
  let run_opts :=
    map (fun mp => "-v " ++ dq ++ fst mp ++ dq ++ ":" ++ dq ++ snd mp ++ dq)
        (mount_points (base self)) in
  (run_opts ++ options (base self))%list.

Definition launch_command (self : t) : string :=
  let run_opts := run_opts self in
  let run_cmd := "docker run --rm " ++ join " " run_opts ++ " "
                 ++ format (image (base self)) ++ " bash -c " in
  if truthy (command (base self)) then
    "docker run --rm " ++ join " " run_opts ++ " "
    ++ format (image (base self)) ++ " " ++ format (command (base self))
  else if nonempty (commands (base self)) then
    "docker run --rm " ++ join " " run_opts ++ " " ++ format (image (base self)) ++ " "
    ++ "bash -c 'cd " ++ format (workdir (base self)) ++ "; "
    ++ join "; " (commands (base self)) ++ "'"
  else
    "docker run --rm " ++ join " " run_opts ++ " " ++ format (image (base self)).

End Docker.

Module Sarus.

Record t : Type := { base : ContainerPlatform; with_mpi : bool }.

Definition __init__ : t := {| base := __init__; with_mpi := false |}.

Definition emit_prepare_commands (self : t) : result (list string) :=
  skip <- (if negb (pull_image (base self)) then Return true
           else startswith (image (base self)) "load/") ;;
  if skip then Return []
  else Return ["sarus pull " ++ format (image (base self))].

Definition run_opts (self : t) : list string :=
  let run_opts :=
    map (fun mp => "--mount=type=bind,source=" ++ dq ++ fst mp ++ dq
                   ++ ",destination=" ++ dq ++ snd mp ++ dq)
        (mount_points (base self)) in
  let run_opts :=
    if with_mpi self then (run_opts ++ ["--mpi"])%list else run_opts in
  (run_opts ++ options (base self))%list.

Definition launch_command (self : t) : string :=
  let run_opts := run_opts self in
  if truthy (command (base self)) then
    "sarus run " ++ join " " run_opts ++ " " ++ format (image (base self)) ++ " "
    ++ format (command (base self))
  else if nonempty (commands (base self)) then
    "sarus run " ++ join " " run_opts ++ " " ++ format (image (base self)) ++ " "
    ++ "bash -c 'cd " ++ format (workdir (base self)) ++ "; "
    ++ join "; " (commands (base self)) ++ "'"
  else
    "sarus run " ++ join " " run_opts ++ " " ++ format (image (base self)).

End Sarus.

Module Shifter.

Record t : Type := { base : ContainerPlatform; with_mpi : bool }.

Definition __init__ : t := {| base := __init__; with_mpi := false |}.

Definition emit_prepare_commands (self : t) : result (list string) :=
  skip <- (if negb (pull_image (base self)) then Return true
           else startswith (image (base self)) "load/") ;;
  if skip then Return []
  else Return ["shifter pull " ++ format (image (base self))].

Definition run_opts (self : t) : list string :=
  let run_opts :=
    map (fun mp => "--mount=type=bind,source=" ++ dq ++ fst mp ++ dq
                   ++ ",destination=" ++ dq ++ snd mp ++ dq)
        (mount_points (base self)) in
  let run_opts :=
    if with_mpi self then (run_opts ++ ["--mpi"])%list else run_opts in
  (run_opts ++ options (base self))%list.

Definition launch_command (self : t) : string :=
  let run_opts := run_opts self in
  if truthy (command (base self)) then
    "shifter run " ++ join " " run_opts ++ " " ++ format (image (base self)) ++ " "
    ++ format (command (base self))
  else if nonempty (commands (base self)) then
    "shifter run " ++ join " " run_opts ++ " " ++ format (image (base self)) ++ " "
    ++ "bash -c 'cd " ++ format (workdir (base self)) ++ "; "
    ++ join "; " (commands (base self)) ++ "'"
  else
    "shifter run " ++ join " " run_opts ++ " " ++ format (image (base self)).

End Shifter.

Module Singularity.

Record t : Type := { base : ContainerPlatform; with_cuda : bool }.

Definition __init__ : t := {| base := __init__; with_cuda := false |}.

Definition emit_prepare_commands (self : t) : result (list string) :=
  Return [].

Definition run_opts (self : t) : list string :=
  let run_opts :=
    map (fun mp => "-B" ++ dq ++ fst mp ++ ":" ++ snd mp ++ dq)
        (mount_points (base self)) in
  let run_opts :=
    if with_cuda self then (run_opts ++ ["--nv"])%list else run_opts in
  (run_opts ++ options (base self))%list.

Definition launch_command (self : t) : string :=
  let run_opts := run_opts self in
  if truthy (command (base self)) then
    "singularity exec " ++ join " " run_opts ++ " "
    ++ format (image (base self)) ++ " " ++ format (command (base self))
  else if nonempty (commands (base self)) then
    "singularity exec " ++ join " " run_opts ++ " " ++ format (image (base self)) ++ " "
    ++ "bash -c 'cd " ++ format (workdir (base self)) ++ "; "
    ++ join "; " (commands (base self)) ++ "'"
  else
    "singularity run " ++ join " " run_opts ++ " " ++ format (image (base self)).

End Singularity.


(** ** Instances of any backend *)

(** A value whose class is one of the four concrete subclasses of
    [ContainerPlatform]. *)
Inductive platform : Type :=
| ADocker (self : Docker.t)
| ASarus (self : Sarus.t)
| AShifter (self : Shifter.t)
| ASingularity (self : Singularity.t).

(** The classes that occur in the module, and the two built-in classes
    that the exception derives from: [object], the base of every class,
    and [Exception]. *)
Inductive pyclass : Type :=
| ClsStr
| ClsNoneType
| ClsContainerError
| ClsContainerPlatform
| ClsDocker
| ClsSarus
| ClsShifter
| ClsSingularity
| ClsContainerPlatformField
| ClsObject
| ClsException.

(** [c.__name__] *)
Definition __name__ (c : pyclass) : string :=
  match c with
  | ClsStr => "str"
  | ClsNoneType => "NoneType"
  | ClsContainerError => "ContainerError"
  | ClsContainerPlatform => "ContainerPlatform"
  | ClsDocker => "Docker"
  | ClsSarus => "Sarus"
  | ClsShifter => "Shifter"
  | ClsSingularity => "Singularity"
  | ClsContainerPlatformField => "ContainerPlatformField"
  | ClsObject => "object"
  | ClsException => "Exception"
  end.

(** [type(self)] *)
Definition type (self : platform) : pyclass :=
  match self with
  | ADocker _ => ClsDocker
  | ASarus _ => ClsSarus
  | AShifter _ => ClsShifter
  | ASingularity _ => ClsSingularity
  end.

(** The inherited attributes of an instance. *)
Definition attrs (self : platform) : ContainerPlatform :=
  match self with
  | ADocker d => Docker.base d
  | ASarus s => Sarus.base s
  | AShifter s => Shifter.base s
  | ASingularity s => Singularity.base s
  end.

(** Assignment to inherited attributes of an instance. *)
Definition update_attrs (f : ContainerPlatform -> ContainerPlatform)
    (self : platform) : platform :=
  match self with
  | ADocker d => ADocker {| Docker.base := f (Docker.base d) |}
  | ASarus s =>
      ASarus {| Sarus.base := f (Sarus.base s); Sarus.with_mpi := Sarus.with_mpi s |}
  | AShifter s =>
      AShifter {| Shifter.base := f (Shifter.base s);
                  Shifter.with_mpi := Shifter.with_mpi s |}
  | ASingularity s =>
      ASingularity {| Singularity.base := f (Singularity.base s);
                      Singularity.with_cuda := Singularity.with_cuda s |}
  end.

(** Method resolution of the two abstract methods. *)
Definition emit_prepare_commands (self : platform) : result (list string) :=
  match self with
  | ADocker d => Docker.emit_prepare_commands d
  | ASarus s => Sarus.emit_prepare_commands s
  | AShifter s => Shifter.emit_prepare_commands s
  | ASingularity s => Singularity.emit_prepare_commands s
  end.

Definition run_opts (self : platform) : list string :=
  match self with
  | ADocker d => Docker.run_opts d
  | ASarus s => Sarus.run_opts s
  | AShifter s => Shifter.run_opts s
  | ASingularity s => Singularity.run_opts s
  end.

Definition launch_command (self : platform) : string :=
  match self with
  | ADocker d => Docker.launch_command d
  | ASarus s => Sarus.launch_command s
  | AShifter s => Shifter.launch_command s
  | ASingularity s => Singularity.launch_command s
  end.

(** [ContainerPlatform.validate], inherited by every backend, as a
    computation over the instance: it yields the instance it leaves
    behind, or raises. *)
Definition validate (self : platform) : result (unit * platform) :=
  match image (attrs self) with
  | None => Raise (ContainerError "no image specified")
  | Some _ => Return (tt, self)
  end.

(** [ContainerPlatform.__str__]: [type(self).__name__] *)
Definition __str__ (self : platform) : string :=
  __name__ (type self).

(** [ContainerPlatform.__rfm_json_encode__]: [str(self)] *)
Definition __rfm_json_encode__ (self : platform) : string :=
  __str__ self.

(** ** The platform field *)

(** The objects that can be assigned to the field, that are bound in
    the namespace of the module, or that calling a class yields.  An
    instance of [object] itself is as opaque as the objects the
    interpreter binds. *)
Inductive pyvalue : Type :=
| PyStr (s : string)
| PyNone
| PyInstance (p : platform)
| PyContainerError
| PyField (types : list pyclass)
| PyClass (c : pyclass)
| PyModule
| PyOpaque
| PyException.

(** [isinstance(v, c)]: every value is an instance of [object], and a
    [ContainerError] is an [Exception]. *)
Definition isinstance (v : pyvalue) (c : pyclass) : bool :=
  match v, c with
  | PyStr _, ClsStr => true
  | PyNone, ClsNoneType => true
  | PyContainerError, ClsContainerError => true
  | PyInstance _, ClsContainerPlatform => true
  | PyInstance (ADocker _), ClsDocker => true
  | PyInstance (ASarus _), ClsSarus => true
  | PyInstance (AShifter _), ClsShifter => true
  | PyInstance (ASingularity _), ClsSingularity => true
  | PyField _, ClsContainerPlatformField => true
  | PyContainerError, ClsException => true
  | PyException, ClsException => true
  | _, ClsObject => true
  | _, _ => false
  end.

(** [v()]: calling a class constructs an instance, except for the
    abstract base class, which cannot be instantiated; anything else that
    the namespace binds is not callable. *)
Definition call (v : pyvalue) : result pyvalue :=
  match v with
  | PyClass ClsStr => Return (PyStr "")
  | PyClass ClsNoneType => Return PyNone
  | PyClass ClsContainerError => Return PyContainerError
  | PyClass ClsContainerPlatform => Raise TypeError
  | PyClass ClsDocker => Return (PyInstance (ADocker Docker.__init__))
  | PyClass ClsSarus => Return (PyInstance (ASarus Sarus.__init__))
  | PyClass ClsShifter => Return (PyInstance (AShifter Shifter.__init__))
  | PyClass ClsSingularity => Return (PyInstance (ASingularity Singularity.__init__))
  | PyClass ClsContainerPlatformField => Return (PyField [ClsContainerPlatform])
  | PyClass ClsObject => Return PyOpaque
  | PyClass ClsException => Return PyException
  | _ => Raise TypeError
  end.

(** [d[k]] *)
Definition getitem (d : gmap string pyvalue) (k : string) : result pyvalue :=
  match d !! k with
  | Some v => Return v
  | None => Raise KeyError
  end.

(** [globals()] inside the module: the names the interpreter binds in
    every module, then the imports and the classes in the order of the
    source. *)
Definition globals : gmap string pyvalue :=
  list_to_map [
    ("__name__", PyStr "reframe.core.containers");
    ("__doc__", PyNone);
    ("__package__", PyStr "reframe.core");
    ("__loader__", PyOpaque);
    ("__spec__", PyOpaque);
    ("__file__", PyOpaque);
    ("__cached__", PyOpaque);
    ("__builtins__", PyOpaque);
    ("abc", PyModule);
    ("warnings", PyModule);
    ("fields", PyModule);
    ("typ", PyModule);
    ("ContainerError", PyClass ClsContainerError);
    ("ContainerPlatform", PyClass ClsContainerPlatform);
    ("Docker", PyClass ClsDocker);
    ("Sarus", PyClass ClsSarus);
    ("Shifter", PyClass ClsShifter);
    ("Singularity", PyClass ClsSingularity);
    ("ContainerPlatformField", PyClass ClsContainerPlatformField)
  ].

Module TypedField.

(** A typed field: its name in the owner and the accepted classes. *)
Record t : Type := { name : string; types : list pyclass }.

(** Modelled from the spec: [fields.TypedField.__set__] belongs to the
    typed-attribute framework, which is not part of this module.  The
    spec describes a field as a settable, type-checked attribute: a value
    of an accepted class is stored unchanged under the name of the field,
    any other value is rejected as a type violation. *)
Definition __set__ (self : t) (obj : gmap string pyvalue) (value : pyvalue) :
    result (gmap string pyvalue) :=
  if existsb (isinstance value) (types self)
  then Return (<[name self := value]> obj)
  else Raise TypeError.

End TypedField.

Module ContainerPlatformField.

(** [ContainerPlatformField.__init__] with its variadic [other_types],
    for the field bound to the attribute [name] of its owner. *)
Definition __init__ (name : string) (other_types : list pyclass) : TypedField.t :=
  {| TypedField.name := name;
     TypedField.types := ClsContainerPlatform :: other_types |}.

Definition __set__ (self : TypedField.t) (obj : gmap string pyvalue)
    (value : pyvalue) : result (gmap string pyvalue) :=
  value <- match value with
           | PyStr name =>
               except_KeyError
                 (cls <- getitem globals name ;; call cls)
                 (Raise (ValueError ("unknown container platform: " ++ name)))
           | _ => Return value
           end ;;
  TypedField.__set__ self obj value.

End ContainerPlatformField.

(** ** Vocabulary of the properties *)

(** The name of the runtime executable of a backend. *)
Definition runtime (p : platform) : string :=
  match p with
  | ADocker _ => "docker"
  | ASarus _ => "sarus"
  | AShifter _ => "shifter"
  | ASingularity _ => "singularity"
  end.

(** The mount flag of one (host, container) pair in the syntax of each
    backend. *)
Definition mount_flag (p : platform) (mp : string * string) : string :=
  match p with
  | ADocker _ => "-v " ++ dq ++ fst mp ++ dq ++ ":" ++ dq ++ snd mp ++ dq
  | ASarus _ | AShifter _ =>
      "--mount=type=bind,source=" ++ dq ++ fst mp ++ dq
      ++ ",destination=" ++ dq ++ snd mp ++ dq
  | ASingularity _ => "-B" ++ dq ++ fst mp ++ ":" ++ snd mp ++ dq
  end.

(** The backend-specific switch: its token and whether it is on.  Docker
    has none. *)
Definition feature (p : platform) : option (string * bool) :=
  match p with
  | ADocker _ => None
  | ASarus s => Some ("--mpi", Sarus.with_mpi s)
  | AShifter s => Some ("--mpi", Shifter.with_mpi s)
  | ASingularity s => Some ("--nv", Singularity.with_cuda s)
  end.

(** The tokens the switch contributes to the run options. *)
Definition feature_flag (p : platform) : list string :=
  match feature p with
  | Some (token, true) => [token]
  | _ => []
  end.

(** The three ways a launch command ends. *)
Inductive branch : Type :=
| CommandBranch
| CommandsBranch
| DefaultBranch.

(** The branch taken for given attributes, decided as the code does. *)
Definition branch_of (a : ContainerPlatform) : branch :=
  if truthy (command a) then CommandBranch
  else if nonempty (commands a) then CommandsBranch
  else DefaultBranch.

(** The runtime with its subcommand, per backend and branch. *)
Definition subcommand (p : platform) (br : branch) : string :=
  match p, br with
  | ADocker _, _ => "docker run --rm"
  | ASarus _, _ => "sarus run"
  | AShifter _, _ => "shifter run"
  | ASingularity _, DefaultBranch => "singularity run"
  | ASingularity _, _ => "singularity exec"
  end.

(** What follows the image on the launch line. *)
Definition payload (a : ContainerPlatform) (br : branch) : string :=
  match br with
  | CommandBranch => " " ++ format (command a)
  | CommandsBranch =>
      " bash -c 'cd " ++ format (workdir a) ++ "; " ++ join "; " (commands a) ++ "'"
  | DefaultBranch => ""
  end.

(** The states in which no prepare command is due: [pull_image] is false
    (Docker, Sarus, Shifter), or the image starts with [load/] (Sarus,
    Shifter), or the backend is Singularity. *)
Definition prepares_nothing (p : platform) : Prop :=
  (type p <> ClsSingularity /\ pull_image (attrs p) = false)
  \/ ((type p = ClsSarus \/ type p = ClsShifter)
      /\ exists i, image (attrs p) = Some i /\ String.prefix "load/" i = true)
  \/ type p = ClsSingularity.

(** Whether a character occurs in a string. *)
Fixpoint has_char (ch : ascii) (s : string) : bool :=
  match s with
  | EmptyString => false
  | String x s' => if Ascii.eqb x ch then true else has_char ch s'
  end.

(** A mount pair neither path of which holds a double quote. *)
Definition quote_free (mp : string * string) : Prop :=
  has_char "034" (fst mp) = false /\ has_char "034" (snd mp) = false.

(** ** Concrete instances used below *)

Definition docker_example : platform :=
  ADocker {| Docker.base := {|
    image := Some "ubuntu:20.04";
    command := Some "ls /data";
    commands := [];
    pull_image := true;
    mount_points := [("/data", "/data")];
    options := [];
    workdir := Some RFM_STAGEDIR |} |}.

Definition singularity_example : platform :=
  ASingularity {| Singularity.base := {|
    image := Some "img.sif";
    command := None;
    commands := ["make"; "make check"];
    pull_image := true;
    mount_points := [("/scratch", "/data"); ("/opt/x", "/x")];
    options := ["--cleanenv"];
    workdir := Some RFM_STAGEDIR |};
    Singularity.with_cuda := true |}.

Definition sarus_example : platform :=
  ASarus {| Sarus.base := {|
    image := Some "load/library/img:1";
    command := Some "hostname";
    commands := ["ignored"];
    pull_image := true;
    mount_points := [("/scratch", "/data")];
    options := ["--workdir=/data"];
    workdir := Some RFM_STAGEDIR |};
    Sarus.with_mpi := true |}.

(** A Docker instance whose [command] is the empty string while the
    deprecated [commands] list is populated. *)
Definition docker_empty_command : platform :=
  ADocker {| Docker.base := {|
    image := Some "img";
    command := Some "";
    commands := ["ls"];
    pull_image := true;
    mount_points := [];
    options := [];
    workdir := Some RFM_STAGEDIR |} |}.

(** An instance whose image is the empty string. *)
Definition shifter_empty_image : platform :=
  AShifter {| Shifter.base := {|
    image := Some "";
    command := None;
    commands := [];
    pull_image := true;
    mount_points := [];
    options := [];
    workdir := Some RFM_STAGEDIR |};
    Shifter.with_mpi := false |}.

(** An instance that pulls its image. *)
Definition shifter_pull : platform :=
  AShifter {| Shifter.base := {|
    image := Some "library/img:1";
    command := None;
    commands := [];
    pull_image := true;
    mount_points := [];
    options := [];
    workdir := Some RFM_STAGEDIR |};
    Shifter.with_mpi := false |}.

(** The Singularity example of the specification: no [command], no
    [commands]. *)
Definition singularity_default : platform :=
  ASingularity {| Singularity.base := {|
    image := Some "img.sif";
    command := None;
    commands := [];
    pull_image := true;
    mount_points := [];
    options := [];
    workdir := Some RFM_STAGEDIR |};
    Singularity.with_cuda := true |}.

(** A Docker instance with an image and nothing else. *)
Definition docker_bare : platform :=
  ADocker {| Docker.base := {|
    image := Some "img";
    command := None;
    commands := [];
    pull_image := true;
    mount_points := [];
    options := [];
    workdir := Some RFM_STAGEDIR |} |}.

Definition singularity_bare : platform :=
  ASingularity {| Singularity.base := attrs docker_bare;
                  Singularity.with_cuda := false |}.

(** A Shifter instance set up like [sarus_example]. *)
Definition shifter_example : platform :=
  AShifter {| Shifter.base := attrs sarus_example; Shifter.with_mpi := true |}.

(** A Sarus instance with everything but the image set. *)
Definition sarus_no_image : platform :=
  update_attrs (set_image None) sarus_example.

(** A Sarus instance with the switch off and the token of the switch
    among its options. *)
Definition sarus_mpi_option : platform :=
  ASarus {| Sarus.base := {|
    image := Some "img";
    command := None;
    commands := [];
    pull_image := true;
    mount_points := [];
    options := ["--mpi"];
    workdir := Some RFM_STAGEDIR |};
    Sarus.with_mpi := false |}.

(** ** Shape of the results *)

Lemma join_nil (sep : string) : join sep [] = "".
Proof. reflexivity. Qed.

Lemma join_singleton (sep x : string) : join sep [x] = x.
Proof. reflexivity. Qed.

Lemma join_cons (sep x y : string) (l : list string) :
  join sep (x :: y :: l) = x ++ sep ++ join sep (y :: l).
Proof. reflexivity. Qed.

Lemma append_empty_r (s : string) : s ++ "" = s.
Proof.
  induction s as [|ch s IH]; [reflexivity |].
  change (String ch (s ++ "") = String ch s). now rewrite IH.
Qed.

Lemma truthy_nonempty (c : string) : c <> "" -> truthy (Some c) = true.
Proof. destruct c; [congruence | reflexivity]. Qed.

Lemma truthy_true (x : option string) :
  truthy x = true <-> exists c, x = Some c /\ c <> "".
Proof.
  split.
  - destruct x as [[|ch c]|]; simpl; try discriminate.
    intros _. exists (String ch c). split; [reflexivity | discriminate].
  - intros (c & -> & Hc). now apply truthy_nonempty.
Qed.

Lemma nonempty_true {A : Type} (l : list A) : nonempty l = true <-> l <> [].
Proof. destruct l; simpl; split; congruence. Qed.

(** The run options are the mount flags, then the switch, then the
    options. *)
Lemma run_opts_shape (p : platform) :
  run_opts p
  = (map (mount_flag p) (mount_points (attrs p)) ++ feature_flag p
     ++ options (attrs p))%list.
Proof.
  destruct p as [d | s | s | s]; cbn -[String.append]; try reflexivity.
  - unfold Sarus.run_opts, feature_flag; cbn -[String.append].
    destruct (Sarus.with_mpi s); [now rewrite <- app_assoc | reflexivity].
  - unfold Shifter.run_opts, feature_flag; cbn -[String.append].
    destruct (Shifter.with_mpi s); [now rewrite <- app_assoc | reflexivity].
  - unfold Singularity.run_opts, feature_flag; cbn -[String.append].
    destruct (Singularity.with_cuda s); [now rewrite <- app_assoc | reflexivity].
Qed.

(** The launch line is the subcommand, the joined run options, the
    image and the payload of the branch, separated by single spaces. *)
Lemma launch_command_shape (p : platform) :
  launch_command p
  = subcommand p (branch_of (attrs p)) ++ " " ++ join " " (run_opts p) ++ " "
    ++ format (image (attrs p)) ++ payload (attrs p) (branch_of (attrs p)).
Proof.
  destruct p as [d | s | s | s]; unfold branch_of; cbn -[String.append join];
    [unfold Docker.launch_command | unfold Sarus.launch_command
    | unfold Shifter.launch_command | unfold Singularity.launch_command];
    match goal with
    | |- context [truthy ?c] => destruct (truthy c)
    end;
    try match goal with
    | |- context [nonempty ?l] => destruct (nonempty l)
    end;
    cbn [payload]; rewrite ?append_empty_r; reflexivity.
Qed.

(** ** Validation *)

(** C3. For every backend instance, [validate] raises if and only if
    [image] is [None], and what it raises is [ContainerError] with the
    message "no image specified"; when [image] is set to a string, the
    empty string included, it returns and the instance it leaves behind
    is the instance it was given. *)
Theorem validate_spec (p : platform) :
  (forall e, validate p = Raise e
             <-> image (attrs p) = None /\ e = ContainerError "no image specified")
  /\ (forall i, image (attrs p) = Some i -> validate p = Return (tt, p)).
Proof.
  unfold validate. destruct (image (attrs p)) as [i|] eqn:Hi; split.
  - intros e. split; [discriminate | intros [? _]; discriminate].
  - reflexivity.
  - intros e. split.
    + intros [= <-]. now split.
    + intros [_ ->]. reflexivity.
  - discriminate.
Qed.

Lemma validate_spec_witness :
  image (attrs shifter_empty_image) = Some ""
  /\ validate shifter_empty_image = Return (tt, shifter_empty_image).
Proof.
  split; [reflexivity |].
  apply (proj2 (validate_spec shifter_empty_image) ""). reflexivity.
Defined.

(** ** Prepare commands *)

Lemma prepares_nothing_docker (d : Docker.t) :
  prepares_nothing (ADocker d) <-> pull_image (Docker.base d) = false.
Proof.
  unfold prepares_nothing; cbn. split.
  - intros [[_ H] | [[[H | H] _] | H]]; [exact H | discriminate ..].
  - intros H. left. split; [discriminate | exact H].
Qed.

Lemma prepares_nothing_mpi (p : platform) :
  type p = ClsSarus \/ type p = ClsShifter ->
  prepares_nothing p
  <-> pull_image (attrs p) = false
      \/ exists i, image (attrs p) = Some i /\ String.prefix "load/" i = true.
Proof.
  intros Hp. unfold prepares_nothing. split.
  - intros [[_ H] | [[_ H] | H]]; [now left | now right |].
    destruct Hp as [Hp | Hp]; rewrite Hp in H; discriminate.
  - intros [H | H].
    + left. split; [| exact H]. destruct Hp as [-> | ->]; discriminate.
    + right. left. now split.
Qed.

(** The two backends with the [load/] rule run the same computation, up
    to the name of the runtime. *)
Lemma emit_prepare_commands_mpi (p : platform) :
  type p = ClsSarus \/ type p = ClsShifter ->
  emit_prepare_commands p
  = if negb (pull_image (attrs p)) then Return []
    else match image (attrs p) with
         | None => Raise AttributeError
         | Some i =>
             if String.prefix "load/" i then Return []
             else Return [runtime p ++ " pull " ++ i]
         end.
Proof.
  destruct p as [d | s | s | s]; cbn; intros [H | H]; try discriminate.
  - unfold Sarus.emit_prepare_commands.
    destruct (pull_image (Sarus.base s)); [| reflexivity].
    destruct (image (Sarus.base s)) as [i|]; [| reflexivity].
    cbn. destruct (String.prefix "load/" i); reflexivity.
  - unfold Shifter.emit_prepare_commands.
    destruct (pull_image (Shifter.base s)); [| reflexivity].
    destruct (image (Shifter.base s)) as [i|]; [| reflexivity].
    cbn. destruct (String.prefix "load/" i); reflexivity.
Qed.

(** C2, as stated, fails: a freshly constructed Sarus instance is in none
    of the listed states, yet the call raises instead of returning the
    pull command. *)
Lemma emit_prepare_commands_unset_image_counterexample :
  ~ prepares_nothing (ASarus Sarus.__init__)
  /\ emit_prepare_commands (ASarus Sarus.__init__) = Raise AttributeError
  /\ emit_prepare_commands (ASarus Sarus.__init__)
     <> Return [runtime (ASarus Sarus.__init__) ++ " pull "
                ++ format (image (attrs (ASarus Sarus.__init__)))].
Proof.
  split; [| split; [reflexivity | discriminate]].
  intros [[_ H] | [[_ (i & H & _)] | H]]; discriminate.
Qed.

(** The amended rule on the two backends with the [load/] rule. *)
Lemma prepare_rule_mpi (p : platform) :
  type p = ClsSarus \/ type p = ClsShifter ->
  (emit_prepare_commands p = Return [] <-> prepares_nothing p)
  /\ (~ prepares_nothing p ->
      image (attrs p) <> None ->
      emit_prepare_commands p
      = Return [runtime p ++ " pull " ++ format (image (attrs p))]).
Proof.
  intros Hp.
  rewrite (prepares_nothing_mpi _ Hp), (emit_prepare_commands_mpi _ Hp).
  destruct (pull_image (attrs p)); cbn [negb].
  - destruct (image (attrs p)) as [i|].
    + destruct (String.prefix "load/" i) eqn:Hl; split.
      * split; [intros _; right; now exists i | reflexivity].
      * intros H; contradiction H; right; now exists i.
      * split; [discriminate |].
        intros [H | (j & [= <-] & H)]; congruence.
      * reflexivity.
    + split.
      * split; [discriminate | intros [H | (j & H & _)]; discriminate].
      * congruence.
  - split; [split; [now left | reflexivity] |].
    intros H; contradiction H; now left.
Qed.

(** C2, amended. [emit_prepare_commands] returns the empty sequence
    exactly when [pull_image] is false (Docker, Sarus, Shifter), or the
    image starts with [load/] (Sarus, Shifter), or the backend is
    Singularity; in every other state of a Docker instance, and in every
    other state of a Sarus or Shifter instance whose image is set, it
    returns the single pull command of the runtime. *)
Theorem emit_prepare_commands_spec (p : platform) :
  (emit_prepare_commands p = Return [] <-> prepares_nothing p)
  /\ (~ prepares_nothing p ->
      type p = ClsDocker \/ image (attrs p) <> None ->
      emit_prepare_commands p
      = Return [runtime p ++ " pull " ++ format (image (attrs p))]).
Proof.
  destruct p as [d | s | s | s].
  - rewrite prepares_nothing_docker; cbn; unfold Docker.emit_prepare_commands.
    destruct (pull_image (Docker.base d)); split; easy.
  - destruct (prepare_rule_mpi (ASarus s)) as [H1 H2]; [now left |].
    split; [exact H1 | intros Hn [Hd | Hi]; [discriminate | now apply H2]].
  - destruct (prepare_rule_mpi (AShifter s)) as [H1 H2]; [now right |].
    split; [exact H1 | intros Hn [Hd | Hi]; [discriminate | now apply H2]].
  - split.
    + split; [intros _; right; now right | reflexivity].
    + intros H; contradiction H; right; now right.
Qed.

Lemma emit_prepare_commands_spec_witness :
  ~ prepares_nothing shifter_pull
  /\ (type shifter_pull = ClsDocker \/ image (attrs shifter_pull) <> None)
  /\ emit_prepare_commands shifter_pull = Return ["shifter pull library/img:1"].
Proof.
  assert (Hn : ~ prepares_nothing shifter_pull).
  { intros [[_ H] | [[_ (i & [= <-] & H)] | H]]; discriminate. }
  assert (Hi : type shifter_pull = ClsDocker \/ image (attrs shifter_pull) <> None).
  { right. discriminate. }
  split; [exact Hn | split; [exact Hi |]].
  exact (proj2 (emit_prepare_commands_spec shifter_pull) Hn Hi).
Defined.

(** C9. On Sarus and Shifter, [emit_prepare_commands] raises exactly when
    [pull_image] is true and [image] is [None], the failure being the
    attribute lookup of [startswith] on [None]; on Docker it never raises
    and formats whatever [image] holds into the pull command.  Hence an
    instance that has passed [validate] never makes it raise. *)
Theorem emit_prepare_commands_requires_image (p : platform) :
  (type p = ClsSarus \/ type p = ClsShifter ->
   forall e, emit_prepare_commands p = Raise e
             <-> e = AttributeError
                 /\ pull_image (attrs p) = true /\ image (attrs p) = None)
  /\ (type p = ClsDocker ->
      emit_prepare_commands p
      = Return (if pull_image (attrs p)
                then ["docker pull " ++ format (image (attrs p))]
                else []))
  /\ (forall u p', validate p = Return (u, p') ->
      exists l, emit_prepare_commands p' = Return l).
Proof.
  split; [| split].
  - intros Hp e. rewrite (emit_prepare_commands_mpi _ Hp).
    destruct (pull_image (attrs p)); cbn [negb].
    + destruct (image (attrs p)) as [i|].
      * destruct (String.prefix "load/" i);
          (split; [discriminate | intros (_ & _ & H); discriminate]).
      * split; [intros [= <-]; easy | intros (-> & _); reflexivity].
    + split; [discriminate | intros (_ & H & _); discriminate].
  - destruct p; cbn; intros H; try discriminate. reflexivity.
  - intros u p'. unfold validate.
    destruct (image (attrs p)) as [i|] eqn:Hi; [| discriminate].
    intros [= _ <-].
    destruct p as [d | s | s | s].
    + eexists; reflexivity.
    + rewrite (emit_prepare_commands_mpi (ASarus s)) by now left.
      rewrite Hi. destruct (negb _); [eauto |]. destruct (String.prefix _ _); eauto.
    + rewrite (emit_prepare_commands_mpi (AShifter s)) by now right.
      rewrite Hi. destruct (negb _); [eauto |]. destruct (String.prefix _ _); eauto.
    + eexists; reflexivity.
Qed.

Lemma emit_prepare_commands_requires_image_witness :
  emit_prepare_commands (AShifter Shifter.__init__) = Raise AttributeError
  /\ emit_prepare_commands (ADocker Docker.__init__) = Return ["docker pull None"]
  /\ exists l, emit_prepare_commands shifter_empty_image = Return l.
Proof.
  split; [| split].
  - apply (proj1 (emit_prepare_commands_requires_image (AShifter Shifter.__init__)));
      [right; reflexivity | repeat split; reflexivity].
  - apply (proj1 (proj2 (emit_prepare_commands_requires_image (ADocker Docker.__init__))));
      reflexivity.
  - apply (proj2 (proj2 (emit_prepare_commands_requires_image shifter_empty_image))
             tt shifter_empty_image).
    reflexivity.
Defined.

(** ** Launch commands: the payload *)

Lemma branch_of_command (a : ContainerPlatform) (c : string) :
  command a = Some c -> c <> "" -> branch_of a = CommandBranch.
Proof.
  intros Hc Hne. unfold branch_of. now rewrite Hc, (truthy_nonempty c Hne).
Qed.

Lemma branch_of_commands (a : ContainerPlatform) :
  truthy (command a) = false -> commands a <> [] -> branch_of a = CommandsBranch.
Proof.
  intros Hc Hcs. unfold branch_of. rewrite Hc.
  now rewrite (proj2 (nonempty_true (commands a)) Hcs).
Qed.

Lemma branch_of_default (a : ContainerPlatform) :
  truthy (command a) = false -> commands a = [] -> branch_of a = DefaultBranch.
Proof. intros Hc Hcs. unfold branch_of. now rewrite Hc, Hcs. Qed.

(** Assigning [commands] changes nothing that the launch line reads
    besides [commands] itself. *)
Lemma launch_command_set_commands (p : platform) (cs : list string) :
  truthy (command (attrs p)) = true ->
  launch_command (update_attrs (set_commands cs) p) = launch_command p.
Proof.
  intros Hc.
  destruct p as [d | s | s | s]; cbn in Hc |- *;
    [unfold Docker.launch_command, Docker.run_opts
    | unfold Sarus.launch_command, Sarus.run_opts
    | unfold Shifter.launch_command, Shifter.run_opts
    | unfold Singularity.launch_command, Singularity.run_opts];
    cbn; now rewrite Hc.
Qed.

(** C1, as stated, fails: with [command] set to the empty string the
    launch line is built from [commands], and changes when [commands]
    does. *)
Lemma command_precedence_empty_command_counterexample :
  command (attrs docker_empty_command) = Some ""
  /\ launch_command docker_empty_command
     = "docker run --rm  img bash -c 'cd /rfm_workdir; ls'"
  /\ launch_command (update_attrs (set_commands []) docker_empty_command)
     = "docker run --rm  img"
  /\ launch_command (update_attrs (set_commands []) docker_empty_command)
     <> launch_command docker_empty_command.
Proof. repeat split; try reflexivity. discriminate. Qed.

(** C1, amended. For every backend and every state in which [command] is
    a non-empty string, the launch line ends with [command] as its
    payload and is the same whatever [commands] holds.  The branch is
    decided by the truth value of [command]: the empty string counts as
    unset. *)
Theorem command_precedence (p : platform) :
  (forall c, command (attrs p) = Some c -> c <> "" ->
     launch_command p
     = subcommand p CommandBranch ++ " " ++ join " " (run_opts p) ++ " "
       ++ format (image (attrs p)) ++ " " ++ c
     /\ forall cs, launch_command (update_attrs (set_commands cs) p)
                   = launch_command p)
  /\ (command (attrs p) = Some "" ->
      launch_command p = launch_command (update_attrs (set_command None) p)).
Proof.
  split.
  - intros c Hc Hne. split.
    + rewrite launch_command_shape, (branch_of_command _ c Hc Hne).
      cbn [payload]. now rewrite Hc.
    + intros cs. apply launch_command_set_commands.
      rewrite Hc. now apply truthy_nonempty.
  - intros Hc.
    destruct p as [d | s | s | s]; cbn in Hc |- *;
      [unfold Docker.launch_command, Docker.run_opts
      | unfold Sarus.launch_command, Sarus.run_opts
      | unfold Shifter.launch_command, Shifter.run_opts
      | unfold Singularity.launch_command, Singularity.run_opts];
      cbn; now rewrite Hc.
Qed.

Lemma command_precedence_witness :
  command (attrs sarus_example) = Some "hostname"
  /\ "hostname" <> ""
  /\ launch_command sarus_example
     = "sarus run --mount=type=bind,source=" ++ dq ++ "/scratch" ++ dq
       ++ ",destination=" ++ dq ++ "/data" ++ dq
       ++ " --mpi --workdir=/data load/library/img:1 hostname"
  /\ launch_command (update_attrs (set_commands ["a"; "b"]) sarus_example)
     = launch_command sarus_example
  /\ launch_command docker_empty_command
     = launch_command (update_attrs (set_command None) docker_empty_command).
Proof.
  assert (Hc : command (attrs sarus_example) = Some "hostname") by reflexivity.
  assert (Hne : "hostname" <> "") by discriminate.
  destruct (proj1 (command_precedence sarus_example) "hostname" Hc Hne) as [H1 H2].
  split; [exact Hc | split; [exact Hne | split; [exact H1 | split]]].
  - exact (H2 ["a"; "b"]).
  - apply (proj2 (command_precedence docker_empty_command)). reflexivity.
Defined.

(** C5. For every backend, when [command] is unset and [commands] is a
    non-empty sequence, the launch line ends with the commands joined by
    a semicolon and a space, preceded by the [cd] into the work
    directory, the whole in single quotes after [bash -c]. *)
Theorem commands_branch (p : platform) :
  command (attrs p) = None ->
  commands (attrs p) <> [] ->
  launch_command p
  = subcommand p CommandsBranch ++ " " ++ join " " (run_opts p) ++ " "
    ++ format (image (attrs p))
    ++ " bash -c 'cd " ++ format (workdir (attrs p)) ++ "; "
    ++ join "; " (commands (attrs p)) ++ "'".
Proof.
  intros Hc Hcs.
  rewrite launch_command_shape, (branch_of_commands (attrs p)); [reflexivity | | exact Hcs].
  now rewrite Hc.
Qed.

Lemma commands_branch_witness :
  command (attrs singularity_example) = None
  /\ commands (attrs singularity_example) = ["make"; "make check"]
  /\ launch_command singularity_example
     = "singularity exec -B" ++ dq ++ "/scratch:/data" ++ dq
       ++ " -B" ++ dq ++ "/opt/x:/x" ++ dq
       ++ " --nv --cleanenv img.sif bash -c 'cd /rfm_workdir; make; make check'".
Proof.
  split; [reflexivity | split; [reflexivity |]].
  apply (commands_branch singularity_example); [reflexivity | discriminate].
Defined.

(** ** Launch commands: the run options *)

(** C4. For every backend and every list [M] of mount points, the run
    options start with exactly [length M] mount flags, the [i]-th flag
    being the [i]-th pair of [M] in the syntax of the backend, and the
    launch line carries the run options joined by single spaces between
    the subcommand and the image.  On the Docker example of the
    specification, the prepare commands and the launch line are the ones
    it gives. *)
Theorem mount_flags_spec (p : platform) :
  run_opts p
  = (map (mount_flag p) (mount_points (attrs p)) ++ feature_flag p
     ++ options (attrs p))%list
  /\ length (map (mount_flag p) (mount_points (attrs p)))
     = length (mount_points (attrs p))
  /\ (forall i mp, nth_error (mount_points (attrs p)) i = Some mp ->
        nth_error (run_opts p) i = Some (mount_flag p mp))
  /\ launch_command p
     = subcommand p (branch_of (attrs p)) ++ " " ++ join " " (run_opts p) ++ " "
       ++ format (image (attrs p)) ++ payload (attrs p) (branch_of (attrs p))
  /\ emit_prepare_commands docker_example = Return ["docker pull ubuntu:20.04"]
  /\ launch_command docker_example
     = "docker run --rm -v " ++ dq ++ "/data" ++ dq ++ ":" ++ dq ++ "/data" ++ dq
       ++ " ubuntu:20.04 ls /data".
Proof.
  split; [apply run_opts_shape |].
  split; [apply length_map |].
  split; [| split; [apply launch_command_shape | split; reflexivity]].
  intros i mp Hi. rewrite run_opts_shape.
  rewrite nth_error_app1.
  - now apply map_nth_error.
  - rewrite length_map. apply nth_error_Some. now rewrite Hi.
Qed.

Lemma mount_flags_spec_witness :
  nth_error (mount_points (attrs singularity_example)) 1 = Some ("/opt/x", "/x")
  /\ nth_error (run_opts singularity_example) 1
     = Some ("-B" ++ dq ++ "/opt/x:/x" ++ dq).
Proof.
  split; [reflexivity |].
  apply (proj1 (proj2 (proj2 (mount_flags_spec singularity_example)))
           1%nat ("/opt/x", "/x")).
  reflexivity.
Defined.

(** No mount flag is one of the two switches. *)
Lemma mount_flag_not_switch (p : platform) (mp : string * string) (token : string) :
  token = "--mpi" \/ token = "--nv" -> mount_flag p mp <> token.
Proof.
  intros [-> | ->]; destruct p; cbv -[String.append]; discriminate.
Qed.

(** C7, as stated, fails: with [with_mpi] false the token is not absent
    when the options hold it, since options are passed on as they are. *)
Lemma feature_flag_off_token_present_counterexample :
  feature sarus_mpi_option = Some ("--mpi", false)
  /\ launch_command sarus_mpi_option = "sarus run --mpi img"
  /\ In "--mpi" (run_opts sarus_mpi_option)
  /\ String.index 0 "--mpi" (launch_command sarus_mpi_option) = Some 10%nat.
Proof. repeat split; try reflexivity. now left. Qed.

(** C7, amended. On Sarus and Shifter with [with_mpi] true, the run
    options are the mount flags, then [--mpi], then the options; on
    Singularity with [with_cuda] true they are the mount flags, then
    [--nv], then the options.  With the switch false the backend adds
    no token: the mount flags are followed by the options at once, and
    the token is among the run options exactly when the options
    themselves hold it.  The launch line carries the run options in this
    order. *)
Theorem feature_flag_position (p : platform) :
  (forall token, feature p = Some (token, true) ->
     (type p = ClsSingularity /\ token = "--nv"
      \/ (type p = ClsSarus \/ type p = ClsShifter) /\ token = "--mpi")
     /\ run_opts p
        = (map (mount_flag p) (mount_points (attrs p)) ++ [token]
           ++ options (attrs p))%list
     /\ nth_error (run_opts p) (length (mount_points (attrs p))) = Some token)
  /\ (forall token, feature p = Some (token, false) ->
     (type p = ClsSingularity /\ token = "--nv"
      \/ (type p = ClsSarus \/ type p = ClsShifter) /\ token = "--mpi")
     /\ run_opts p
        = (map (mount_flag p) (mount_points (attrs p)) ++ options (attrs p))%list
     /\ (In token (run_opts p) <-> In token (options (attrs p))))
  /\ launch_command p
     = subcommand p (branch_of (attrs p)) ++ " " ++ join " " (run_opts p) ++ " "
       ++ format (image (attrs p)) ++ payload (attrs p) (branch_of (attrs p)).
Proof.
  split; [| split; [| apply launch_command_shape]].
  - intros token Hf.
    assert (Hflag : feature_flag p = [token])
      by (unfold feature_flag; now rewrite Hf).
    split; [| split].
    + destruct p; cbn in Hf; try discriminate; injection Hf as <- _; cbn; auto.
    + now rewrite run_opts_shape, Hflag.
    + rewrite run_opts_shape, Hflag, nth_error_app2; rewrite length_map; [| auto].
      now rewrite Nat.sub_diag.
  - intros token Hf.
    assert (Hflag : feature_flag p = [])
      by (unfold feature_flag; now rewrite Hf).
    assert (Htok : token = "--mpi" \/ token = "--nv")
      by (destruct p; cbn in Hf; try discriminate; injection Hf as <- _; auto).
    split; [| split].
    + destruct p; cbn in Hf; try discriminate; injection Hf as <- _; cbn; auto.
    + now rewrite run_opts_shape, Hflag.
    + rewrite run_opts_shape, Hflag. cbn [app].
      rewrite in_app_iff, in_map_iff. split; [| now right].
      intros [(mp & Hmp & _) | Hin]; [| exact Hin].
      now apply (mount_flag_not_switch p mp token Htok) in Hmp.
Qed.

Lemma feature_flag_position_witness :
  feature sarus_example = Some ("--mpi", true)
  /\ run_opts sarus_example
     = ["--mount=type=bind,source=" ++ dq ++ "/scratch" ++ dq
        ++ ",destination=" ++ dq ++ "/data" ++ dq;
        "--mpi"; "--workdir=/data"]
  /\ feature shifter_pull = Some ("--mpi", false)
  /\ ~ In "--mpi" (run_opts shifter_pull).
Proof.
  assert (H1 : feature sarus_example = Some ("--mpi", true)) by reflexivity.
  assert (H2 : feature shifter_pull = Some ("--mpi", false)) by reflexivity.
  split; [exact H1 | split; [| split; [exact H2 |]]].
  - exact (proj1 (proj2 (proj1 (feature_flag_position sarus_example) "--mpi" H1))).
  - intros Hin.
    apply (proj2 (proj2 (proj1 (proj2 (feature_flag_position shifter_pull))
                           "--mpi" H2))) in Hin.
    destruct Hin.
Defined.

(** ** Launch commands: the subcommand *)

(** C6. Singularity launches with [exec] in the [command] and in the
    [commands] branch and with [run] in the default branch; Docker, Sarus
    and Shifter launch with [run] in all three.  In the default branch
    the launch line of every backend ends with the image: nothing, and so
    no [bash -c] wrapper, follows it. *)
Theorem launch_subcommands (p : platform) :
  (truthy (command (attrs p)) = true ->
   launch_command p
   = match p with
     | ADocker _ => "docker run --rm"
     | ASarus _ => "sarus run"
     | AShifter _ => "shifter run"
     | ASingularity _ => "singularity exec"
     end ++ " " ++ join " " (run_opts p) ++ " " ++ format (image (attrs p))
     ++ " " ++ format (command (attrs p)))
  /\ (truthy (command (attrs p)) = false -> commands (attrs p) <> [] ->
      launch_command p
      = match p with
        | ADocker _ => "docker run --rm"
        | ASarus _ => "sarus run"
        | AShifter _ => "shifter run"
        | ASingularity _ => "singularity exec"
        end ++ " " ++ join " " (run_opts p) ++ " " ++ format (image (attrs p))
        ++ " bash -c 'cd " ++ format (workdir (attrs p)) ++ "; "
        ++ join "; " (commands (attrs p)) ++ "'")
  /\ (truthy (command (attrs p)) = false -> commands (attrs p) = [] ->
      launch_command p
      = match p with
        | ADocker _ => "docker run --rm"
        | ASarus _ => "sarus run"
        | AShifter _ => "shifter run"
        | ASingularity _ => "singularity run"
        end ++ " " ++ join " " (run_opts p) ++ " " ++ format (image (attrs p))).
Proof.
  split; [| split].
  - intros Hc. rewrite launch_command_shape. unfold branch_of. rewrite Hc.
    now destruct p.
  - intros Hc Hcs. rewrite launch_command_shape, (branch_of_commands _ Hc Hcs).
    now destruct p.
  - intros Hc Hcs. rewrite launch_command_shape, (branch_of_default _ Hc Hcs).
    cbn [payload]. rewrite append_empty_r. now destruct p.
Qed.

Lemma launch_subcommands_witness :
  launch_command (update_attrs (set_command (Some "nvidia-smi")) singularity_default)
  = "singularity exec --nv img.sif nvidia-smi"
  /\ launch_command (update_attrs (set_commands ["nvidia-smi"]) singularity_default)
     = "singularity exec --nv img.sif bash -c 'cd /rfm_workdir; nvidia-smi'"
  /\ launch_command singularity_default = "singularity run --nv img.sif"
  /\ launch_command (update_attrs (set_command None) docker_example)
     = "docker run --rm -v " ++ dq ++ "/data" ++ dq ++ ":" ++ dq ++ "/data" ++ dq
       ++ " ubuntu:20.04".
Proof.
  split; [| split; [| split]].
  - apply (proj1 (launch_subcommands
                    (update_attrs (set_command (Some "nvidia-smi")) singularity_default))).
    reflexivity.
  - apply (proj1 (proj2 (launch_subcommands
                    (update_attrs (set_commands ["nvidia-smi"]) singularity_default))));
      [reflexivity | discriminate].
  - apply (proj2 (proj2 (launch_subcommands singularity_default))); reflexivity.
  - apply (proj2 (proj2 (launch_subcommands
                    (update_attrs (set_command None) docker_example)))); reflexivity.
Defined.

(** C10. For every backend, when there are no mount points, no options
    and the switch of the backend is off, the run options are empty, and
    since their join is still interpolated between two single spaces,
    two consecutive spaces separate the subcommand from the image. *)
Theorem empty_run_opts_double_space (p : platform) :
  mount_points (attrs p) = [] ->
  options (attrs p) = [] ->
  feature_flag p = [] ->
  run_opts p = []
  /\ launch_command p
     = subcommand p (branch_of (attrs p)) ++ "  " ++ format (image (attrs p))
       ++ payload (attrs p) (branch_of (attrs p))
  /\ (branch_of (attrs p) = DefaultBranch ->
      launch_command p
      = subcommand p DefaultBranch ++ "  " ++ format (image (attrs p))).
Proof.
  intros Hm Ho Hf.
  assert (Hr : run_opts p = []) by now rewrite run_opts_shape, Hm, Ho, Hf.
  split; [exact Hr |].
  assert (Hl : launch_command p
               = subcommand p (branch_of (attrs p)) ++ "  "
                 ++ format (image (attrs p))
                 ++ payload (attrs p) (branch_of (attrs p))).
  { rewrite launch_command_shape, Hr. reflexivity. }
  split; [exact Hl |].
  intros Hb. rewrite Hl, Hb. cbn [payload]. now rewrite append_empty_r.
Qed.

Lemma empty_run_opts_double_space_witness :
  launch_command docker_bare = "docker run --rm  img"
  /\ launch_command singularity_bare = "singularity run  img"
  /\ launch_command (update_attrs (set_command (Some "ls")) singularity_bare)
     = "singularity exec  img ls".
Proof.
  split; [| split].
  - apply (proj2 (proj2 (empty_run_opts_double_space docker_bare
                           eq_refl eq_refl eq_refl))).
    reflexivity.
  - apply (proj2 (proj2 (empty_run_opts_double_space singularity_bare
                           eq_refl eq_refl eq_refl))).
    reflexivity.
  - exact (proj1 (proj2 (empty_run_opts_double_space
                           (update_attrs (set_command (Some "ls")) singularity_bare)
                           eq_refl eq_refl eq_refl))).
Defined.

(** ** Assignment to the platform field *)

Section PlatformField.

Variable field_name : string.
Variable other_types : list pyclass.
Variable obj : gmap string pyvalue.

Local Abbreviation self := (ContainerPlatformField.__init__ field_name other_types).

(** What the namespace of the module binds the relevant names to. *)
Lemma globals_backends :
  globals !! "Docker" = Some (PyClass ClsDocker)
  /\ globals !! "Sarus" = Some (PyClass ClsSarus)
  /\ globals !! "Shifter" = Some (PyClass ClsShifter)
  /\ globals !! "Singularity" = Some (PyClass ClsSingularity).
Proof. repeat split; vm_compute; reflexivity. Qed.

Lemma globals_abstract_base :
  globals !! "ContainerPlatform" = Some (PyClass ClsContainerPlatform).
Proof. vm_compute; reflexivity. Qed.

(** A call in this module raises nothing but [TypeError]. *)
Lemma call_raises (v : pyvalue) (e : exn) : call v = Raise e -> e = TypeError.
Proof. destruct v as [| | | | |[]| | |]; cbn; congruence. Qed.

(** The name of a backend class resolves to a freshly constructed
    instance of that class, which is stored in the field. *)
Lemma platform_field_resolves_backend_names :
  ContainerPlatformField.__set__ self obj (PyStr "Docker")
  = Return (<[field_name := PyInstance (ADocker Docker.__init__)]> obj)
  /\ ContainerPlatformField.__set__ self obj (PyStr "Sarus")
     = Return (<[field_name := PyInstance (ASarus Sarus.__init__)]> obj)
  /\ ContainerPlatformField.__set__ self obj (PyStr "Shifter")
     = Return (<[field_name := PyInstance (AShifter Shifter.__init__)]> obj)
  /\ ContainerPlatformField.__set__ self obj (PyStr "Singularity")
     = Return (<[field_name := PyInstance (ASingularity Singularity.__init__)]> obj).
Proof.
  destruct globals_backends as (Hd & Hs & Hh & Hg).
  unfold ContainerPlatformField.__set__, getitem.
  rewrite Hd, Hs, Hh, Hg. repeat split; reflexivity.
Qed.

(** The instance a name resolves to is the one direct construction gives,
    attribute by attribute, and its type name is the name resolved. *)
Lemma backend_defaults :
  attrs (ADocker Docker.__init__) = __init__
  /\ attrs (ASarus Sarus.__init__) = __init__
  /\ attrs (AShifter Shifter.__init__) = __init__
  /\ attrs (ASingularity Singularity.__init__) = __init__
  /\ __str__ (ADocker Docker.__init__) = "Docker"
  /\ __str__ (ASarus Sarus.__init__) = "Sarus"
  /\ __str__ (AShifter Shifter.__init__) = "Shifter"
  /\ __str__ (ASingularity Singularity.__init__) = "Singularity"
  /\ Sarus.with_mpi Sarus.__init__ = false
  /\ Shifter.with_mpi Shifter.__init__ = false
  /\ Singularity.with_cuda Singularity.__init__ = false
  /\ image __init__ = None /\ command __init__ = None /\ commands __init__ = []
  /\ workdir __init__ = Some "/rfm_workdir" /\ mount_points __init__ = []
  /\ options __init__ = [] /\ pull_image __init__ = true.
Proof. repeat split; reflexivity. Qed.

(** A name that the namespace of the module does not bind is reported
    as an unknown platform. *)
Lemma platform_field_unbound_name (n : string) :
  globals !! n = None ->
  ContainerPlatformField.__set__ self obj (PyStr n)
  = Raise (ValueError ("unknown container platform: " ++ n)).
Proof.
  intros Hn. unfold ContainerPlatformField.__set__, getitem. now rewrite Hn.
Qed.

(** The match is exact and sensitive to case. *)
Lemma platform_field_case_sensitive :
  ContainerPlatformField.__set__ self obj (PyStr "docker")
  = Raise (ValueError "unknown container platform: docker")
  /\ ContainerPlatformField.__set__ self obj (PyStr "Docker ")
     = Raise (ValueError "unknown container platform: Docker ").
Proof.
  split; apply platform_field_unbound_name; vm_compute; reflexivity.
Qed.

(** An instance of a backend passes the type check and is stored as it
    is. *)
Lemma platform_field_accepts_instance (p : platform) :
  ContainerPlatformField.__set__ self obj (PyInstance p)
  = Return (<[field_name := PyInstance p]> obj).
Proof. destruct p; reflexivity. Qed.

(** A name that the namespace binds is never reported as an unknown
    platform, whatever it is bound to. *)
Lemma platform_field_bound_name (n : string) (v : pyvalue) (msg : string) :
  globals !! n = Some v ->
  ContainerPlatformField.__set__ self obj (PyStr n) <> Raise (ValueError msg).
Proof.
  intros Hn. unfold ContainerPlatformField.__set__, getitem. rewrite Hn.
  cbn [bind except_KeyError].
  destruct (call v) as [w | e] eqn:Hcall.
  - cbn. unfold TypedField.__set__.
    destruct (existsb _ _); discriminate.
  - apply call_raises in Hcall as ->. discriminate.
Qed.

(** C8, on the name of the abstract base class.  [ContainerPlatform] is
    the type name of no backend, yet assigning it to the field raises
    [TypeError], from the attempt to instantiate the abstract class, and
    not the [ValueError] that reports an unknown platform. *)
Theorem platform_field_abstract_base_name :
  (forall p, __str__ p <> "ContainerPlatform")
  /\ ContainerPlatformField.__set__ self obj (PyStr "ContainerPlatform")
     = Raise TypeError
  /\ ContainerPlatformField.__set__ self obj (PyStr "ContainerPlatform")
     <> Raise (ValueError "unknown container platform: ContainerPlatform").
Proof.
  assert (H : ContainerPlatformField.__set__ self obj (PyStr "ContainerPlatform")
              = Raise TypeError).
  { unfold ContainerPlatformField.__set__, getitem.
    now rewrite globals_abstract_base. }
  split; [intros []; discriminate | split; [exact H | rewrite H; discriminate]].
Qed.

End PlatformField.

(** ** Platform names: from an instance to its name and back *)

(** X12. The string form of an instance, which is also its JSON
    encoding, tells its class and nothing else: two instances have the
    same string form exactly when they are of the same class, whatever
    their attributes. *)
Theorem str_identifies_class (p q : platform) :
  __rfm_json_encode__ p = __str__ p
  /\ (__str__ p = __str__ q <-> type p = type q).
Proof.
  split; [reflexivity |].
  unfold __str__. split; [| now intros ->].
  destruct p, q; cbn; intros H; try reflexivity; discriminate H.
Qed.

Lemma str_identifies_class_witness :
  attrs docker_example <> attrs docker_bare
  /\ __str__ docker_example = __str__ docker_bare.
Proof.
  split; [discriminate |].
  apply (proj2 (str_identifies_class docker_example docker_bare)). reflexivity.
Defined.

(** The classes a [ContainerError] and a field are instances of. *)
Lemma isinstance_ContainerError (c : pyclass) :
  isinstance PyContainerError c = true
  <-> c = ClsContainerError \/ c = ClsException \/ c = ClsObject.
Proof.
  split; [destruct c; cbn; intros H; auto; discriminate H |].
  intros [-> | [-> | ->]]; reflexivity.
Qed.

Lemma isinstance_Field (tys : list pyclass) (c : pyclass) :
  isinstance (PyField tys) c = true
  <-> c = ClsContainerPlatformField \/ c = ClsObject.
Proof.
  split; [destruct c; cbn; intros H; auto; discriminate H |].
  intros [-> | ->]; reflexivity.
Qed.

Lemma globals_ContainerError :
  globals !! "ContainerError" = Some (PyClass ClsContainerError).
Proof. vm_compute; reflexivity. Qed.

(** The bindings of the namespace, one by one. *)
Lemma globals_lookup_Some (n : string) (v : pyvalue) :
  globals !! n = Some v ->
  (exists p, n = __str__ p /\ v = PyClass (type p))
  \/ v = PyClass ClsContainerError
  \/ v = PyClass ClsContainerPlatformField
  \/ call v = Raise TypeError.
Proof.
  intros H. apply elem_of_list_to_map_2 in H.
  repeat (apply elem_of_cons in H as [H | H];
          [injection H as -> -> |]).
  20: now apply elem_of_nil in H.
  all: try (right; right; right; reflexivity).
  - right; left; reflexivity.
  - left. now exists (ADocker Docker.__init__).
  - left. now exists (ASarus Sarus.__init__).
  - left. now exists (AShifter Shifter.__init__).
  - left. now exists (ASingularity Singularity.__init__).
  - right; right; left; reflexivity.
Qed.

Section PlatformNames.

Variable field_name : string.
Variable other_types : list pyclass.
Variable obj : gmap string pyvalue.

Local Abbreviation self := (ContainerPlatformField.__init__ field_name other_types).

(** X1. Assigning the JSON encoding of any instance to a platform field
    stores a freshly constructed instance of the same class: the class
    survives the round trip, the attributes are those of construction. *)
Theorem platform_name_round_trip (p : platform) :
  exists q,
    ContainerPlatformField.__set__ self obj (PyStr (__rfm_json_encode__ p))
    = Return (<[field_name := PyInstance q]> obj)
    /\ type q = type p
    /\ attrs q = __init__
    /\ feature_flag q = [].
Proof.
  destruct (platform_field_resolves_backend_names field_name other_types obj)
    as (Hd & Hs & Hh & Hg).
  destruct p as [d | s | s | s].
  - exists (ADocker Docker.__init__). now rewrite <- Hd.
  - exists (ASarus Sarus.__init__). now rewrite <- Hs.
  - exists (AShifter Shifter.__init__). now rewrite <- Hh.
  - exists (ASingularity Singularity.__init__). now rewrite <- Hg.
Qed.

(** X2. Assigning a string raises the [ValueError] of an unknown
    platform exactly when the namespace of the module does not bind that
    string, and the message then ends with the string itself. *)
Theorem unknown_platform_iff (n msg : string) :
  ContainerPlatformField.__set__ self obj (PyStr n) = Raise (ValueError msg)
  <-> globals !! n = None /\ msg = "unknown container platform: " ++ n.
Proof.
  split.
  - intros H. destruct (globals !! n) as [v|] eqn:Hn.
    + now apply (platform_field_bound_name field_name other_types obj n v msg) in Hn.
    + rewrite (platform_field_unbound_name _ _ _ n Hn) in H.
      injection H as <-. now split.
  - intros [Hn ->]. now apply platform_field_unbound_name.
Qed.

(** X3. Provided none of the other types of the field accepts a
    [ContainerError] or a field, as [object] and [Exception] would,
    assigning a string never stores anything but a freshly constructed
    backend whose type name is that string.  The proviso is needed: when
    one of the other types accepts a [ContainerError], assigning the
    name of that class stores an exception in the field. *)
Theorem string_assignment_stores_default_backend :
  ((forall c, In c other_types -> isinstance PyContainerError c = false) ->
   (forall c tys, In c other_types -> isinstance (PyField tys) c = false) ->
   forall (n : string) (obj' : gmap string pyvalue),
     ContainerPlatformField.__set__ self obj (PyStr n) = Return obj' ->
     exists q, n = __str__ q
               /\ obj' = <[field_name := PyInstance q]> obj
               /\ attrs q = __init__
               /\ feature_flag q = [])
  /\ (forall c, In c other_types -> isinstance PyContainerError c = true ->
      ContainerPlatformField.__set__ self obj (PyStr "ContainerError")
      = Return (<[field_name := PyContainerError]> obj)).
Proof.
  split.
  - intros Herr Hfld n obj'.
    unfold ContainerPlatformField.__set__, getitem.
    destruct (globals !! n) as [v|] eqn:Hn; [| discriminate].
    cbn [bind except_KeyError].
    destruct (globals_lookup_Some n v Hn) as [(p & -> & ->) | [-> | [-> | Hcall]]].
    + destruct p; cbn; intros [= <-];
        [exists (ADocker Docker.__init__) | exists (ASarus Sarus.__init__)
        | exists (AShifter Shifter.__init__)
        | exists (ASingularity Singularity.__init__)]; easy.
    + cbn. unfold TypedField.__set__. cbn.
      destruct (existsb _ other_types) eqn:He; [| discriminate].
      apply existsb_exists in He as (c & Hin & Hc).
      rewrite (Herr c Hin) in Hc. discriminate Hc.
    + cbn. unfold TypedField.__set__. cbn.
      destruct (existsb _ other_types) eqn:He; [| discriminate].
      apply existsb_exists in He as (c & Hin & Hc).
      rewrite (Hfld c _ Hin) in Hc. discriminate Hc.
    + rewrite Hcall. discriminate.
  - intros c Hin Hc.
    unfold ContainerPlatformField.__set__, getitem.
    rewrite globals_ContainerError. cbn. unfold TypedField.__set__. cbn.
    assert (He : existsb (isinstance PyContainerError) other_types = true)
      by (apply existsb_exists; now exists c).
    now rewrite He.
Qed.

End PlatformNames.

Lemma unknown_platform_iff_witness :
  ContainerPlatformField.__set__
    (ContainerPlatformField.__init__ "container_platform" [ClsNoneType]) ∅
    (PyStr "docker")
  = Raise (ValueError "unknown container platform: docker").
Proof.
  apply (proj2 (unknown_platform_iff "container_platform" [ClsNoneType] ∅
                  "docker" "unknown container platform: docker")).
  split; [vm_compute; reflexivity | reflexivity].
Defined.

Lemma string_assignment_stores_default_backend_witness :
  (exists q, "Sarus" = __str__ q
             /\ <["container_platform" := PyInstance (ASarus Sarus.__init__)]> ∅
                = <["container_platform" := PyInstance q]> (∅ : gmap string pyvalue)
             /\ attrs q = __init__
             /\ feature_flag q = [])
  /\ ContainerPlatformField.__set__
       (ContainerPlatformField.__init__ "container_platform" [ClsObject]) ∅
       (PyStr "ContainerError")
     = Return (<["container_platform" := PyContainerError]> ∅).
Proof.
  split.
  - apply (proj1 (string_assignment_stores_default_backend
                    "container_platform" [ClsNoneType] ∅)).
    + intros c [<- | []]. reflexivity.
    + intros c tys [<- | []]. reflexivity.
    + apply (platform_field_resolves_backend_names
               "container_platform" [ClsNoneType] ∅).
  - apply (proj2 (string_assignment_stores_default_backend
                    "container_platform" [ClsObject] ∅) ClsObject).
    + now left.
    + reflexivity.
Defined.

(** ** What the commands read and what they always look like *)

Lemma append_assoc_r (a b c : string) : (a ++ b) ++ c = a ++ b ++ c.
Proof.
  induction a as [|ch a IH]; [reflexivity |].
  change (String ch ((a ++ b) ++ c) = String ch (a ++ b ++ c)). now rewrite IH.
Qed.

Lemma attrs_update (f : ContainerPlatform -> ContainerPlatform) (p : platform) :
  attrs (update_attrs f p) = f (attrs p).
Proof. now destruct p. Qed.

Lemma type_update (f : ContainerPlatform -> ContainerPlatform) (p : platform) :
  type (update_attrs f p) = type p.
Proof. now destruct p. Qed.

(** An assignment that leaves [mount_points] and [options] alone leaves
    the run options alone. *)
Lemma run_opts_update (f : ContainerPlatform -> ContainerPlatform) (p : platform) :
  (forall a, mount_points (f a) = mount_points a) ->
  (forall a, options (f a) = options a) ->
  run_opts (update_attrs f p) = run_opts p.
Proof.
  intros Hm Ho.
  destruct p as [d | s | s | s]; cbn;
    [unfold Docker.run_opts | unfold Sarus.run_opts
    | unfold Shifter.run_opts | unfold Singularity.run_opts];
    cbn; now rewrite Hm, Ho.
Qed.

Lemma subcommand_update (f : ContainerPlatform -> ContainerPlatform)
    (p : platform) (br : branch) :
  subcommand (update_attrs f p) br = subcommand p br.
Proof. now destruct p. Qed.

(** X4. Whatever the backend, the attributes and the branch, the launch
    line starts with the name of the runtime followed by a space. *)
Theorem launch_command_starts_with_runtime (p : platform) :
  String.prefix (runtime p ++ " ") (launch_command p) = true.
Proof.
  rewrite launch_command_shape.
  destruct p, (branch_of _); reflexivity.
Qed.

(** X5. When [emit_prepare_commands] returns, it returns either nothing
    or exactly one command, the pull of the image by the runtime of the
    backend. *)
Theorem prepare_commands_at_most_one_pull (p : platform) (l : list string) :
  emit_prepare_commands p = Return l ->
  l = [] \/ l = [runtime p ++ " pull " ++ format (image (attrs p))].
Proof.
  destruct p as [d | s | s | s]; cbn.
  - unfold Docker.emit_prepare_commands.
    destruct (pull_image _); intros [= <-]; auto.
  - unfold Sarus.emit_prepare_commands.
    destruct (negb _); [cbn; intros [= <-]; auto |].
    destruct (startswith _ _) as [[] | e]; cbn; [| | discriminate]; intros [= <-]; auto.
  - unfold Shifter.emit_prepare_commands.
    destruct (negb _); [cbn; intros [= <-]; auto |].
    destruct (startswith _ _) as [[] | e]; cbn; [| | discriminate]; intros [= <-]; auto.
  - intros [= <-]; auto.
Qed.

Lemma prepare_commands_at_most_one_pull_witness :
  ["docker pull ubuntu:20.04"] = []
  \/ ["docker pull ubuntu:20.04"]
     = [runtime docker_example ++ " pull " ++ format (image (attrs docker_example))].
Proof.
  apply (prepare_commands_at_most_one_pull docker_example). reflexivity.
Defined.

(** X6. The prepare commands depend on the class of the instance, on
    [pull_image] and on [image] only: two instances that agree on these
    give the same result, the same failure included. *)
Theorem prepare_commands_frame (p q : platform) :
  type p = type q ->
  pull_image (attrs p) = pull_image (attrs q) ->
  image (attrs p) = image (attrs q) ->
  emit_prepare_commands p = emit_prepare_commands q.
Proof.
  destruct p, q; cbn; intros Ht Hp Hi; try discriminate Ht;
    [unfold Docker.emit_prepare_commands | unfold Sarus.emit_prepare_commands
    | unfold Shifter.emit_prepare_commands | reflexivity];
    now rewrite Hp, Hi.
Qed.

Lemma prepare_commands_frame_witness :
  emit_prepare_commands sarus_example
  = emit_prepare_commands
      (update_attrs (set_command None)
         (ASarus {| Sarus.base := attrs sarus_example; Sarus.with_mpi := false |})).
Proof.
  apply (prepare_commands_frame sarus_example); reflexivity.
Defined.

(** X7. The launch line never depends on [pull_image], and it depends on
    the deprecated [workdir] in the [commands] branch only. *)
Theorem launch_command_frame (p : platform) :
  (forall b, launch_command (update_attrs (set_pull_image b) p) = launch_command p)
  /\ (forall w, branch_of (attrs p) <> CommandsBranch ->
        launch_command (update_attrs (set_workdir w) p) = launch_command p).
Proof.
  split.
  - intros b. rewrite !launch_command_shape, attrs_update, subcommand_update.
    now rewrite run_opts_update.
  - intros w Hb. rewrite !launch_command_shape, attrs_update, subcommand_update.
    rewrite run_opts_update by reflexivity.
    change (branch_of (set_workdir w (attrs p))) with (branch_of (attrs p)).
    destruct (branch_of (attrs p)); [reflexivity | contradiction | reflexivity].
Qed.

Lemma launch_command_frame_witness :
  branch_of (attrs sarus_example) = CommandBranch
  /\ launch_command (update_attrs (set_workdir (Some "/elsewhere")) sarus_example)
     = launch_command sarus_example.
Proof.
  split; [reflexivity |].
  apply (proj2 (launch_command_frame sarus_example)). discriminate.
Defined.

(** X8. [launch_command] does not check the image: on an instance that
    [validate] rejects it still yields a launch line, in which the text
    [None] stands where the image belongs. *)
Theorem launch_command_unchecked_image (p : platform) :
  image (attrs p) = None ->
  validate p = Raise (ContainerError "no image specified")
  /\ launch_command p
     = subcommand p (branch_of (attrs p)) ++ " " ++ join " " (run_opts p)
       ++ " None" ++ payload (attrs p) (branch_of (attrs p)).
Proof.
  intros Hi. split.
  - unfold validate. now rewrite Hi.
  - rewrite launch_command_shape, Hi. reflexivity.
Qed.

Lemma launch_command_unchecked_image_witness :
  image (attrs sarus_no_image) = None
  /\ launch_command sarus_no_image
     = "sarus run --mount=type=bind,source=" ++ dq ++ "/scratch" ++ dq
       ++ ",destination=" ++ dq ++ "/data" ++ dq
       ++ " --mpi --workdir=/data None hostname".
Proof.
  split; [reflexivity |].
  apply (proj2 (launch_command_unchecked_image sarus_no_image eq_refl)).
Defined.

(** X9. Sarus and Shifter are twins: on the same attributes and the same
    [with_mpi] they build the same run options, their launch lines are
    the same after the name of the runtime, and their prepare commands
    are the same after it, or fail alike. *)
Theorem sarus_shifter_twins (a : ContainerPlatform) (m : bool) :
  Sarus.run_opts {| Sarus.base := a; Sarus.with_mpi := m |}
  = Shifter.run_opts {| Shifter.base := a; Shifter.with_mpi := m |}
  /\ (exists tail,
        Sarus.launch_command {| Sarus.base := a; Sarus.with_mpi := m |}
        = "sarus" ++ tail
        /\ Shifter.launch_command {| Shifter.base := a; Shifter.with_mpi := m |}
           = "shifter" ++ tail)
  /\ match Sarus.emit_prepare_commands {| Sarus.base := a; Sarus.with_mpi := m |},
           Shifter.emit_prepare_commands {| Shifter.base := a; Shifter.with_mpi := m |}
     with
     | Return l1, Return l2 =>
         exists tails, l1 = map (String.append "sarus") tails
                       /\ l2 = map (String.append "shifter") tails
     | Raise e1, Raise e2 => e1 = e2
     | _, _ => False
     end.
Proof.
  split; [reflexivity | split].
  - unfold Sarus.launch_command, Shifter.launch_command.
    change (Shifter.run_opts {| Shifter.base := a; Shifter.with_mpi := m |})
      with (Sarus.run_opts {| Sarus.base := a; Sarus.with_mpi := m |}).
    cbn [Sarus.base Shifter.base].
    set (opts := join " " (Sarus.run_opts _)).
    destruct (truthy (command a)); [| destruct (nonempty (commands a))].
    + exists (" run " ++ opts ++ " " ++ format (image a) ++ " " ++ format (command a)).
      split; reflexivity.
    + exists (" run " ++ opts ++ " " ++ format (image a) ++ " "
              ++ "bash -c 'cd " ++ format (workdir a) ++ "; "
              ++ join "; " (commands a) ++ "'").
      split; reflexivity.
    + exists (" run " ++ opts ++ " " ++ format (image a)).
      split; reflexivity.
  - unfold Sarus.emit_prepare_commands, Shifter.emit_prepare_commands.
    cbn [Sarus.base Shifter.base].
    destruct (negb (pull_image a)); cbn.
    + exists []. split; reflexivity.
    + destruct (startswith (image a) "load/") as [[] | e]; cbn.
      * exists []. split; reflexivity.
      * exists [" pull " ++ format (image a)]. split; reflexivity.
      * reflexivity.
Qed.

(** X10. The run options are as many as the mount points, the switch
    when it is on, and the options together; each entry of [options] is
    passed on as it is, in order, after the mount flags and the switch. *)
Theorem options_follow_switch (p : platform) :
  length (run_opts p)
  = (length (mount_points (attrs p)) + length (feature_flag p)
     + length (options (attrs p)))%nat
  /\ forall i o, nth_error (options (attrs p)) i = Some o ->
       nth_error (run_opts p)
         (length (mount_points (attrs p)) + length (feature_flag p) + i)
       = Some o.
Proof.
  rewrite run_opts_shape. split.
  - rewrite !length_app, length_map. lia.
  - intros i o Hi.
    rewrite nth_error_app2; rewrite length_map; [| lia].
    rewrite nth_error_app2 by lia.
    replace (_ + _ + i - _ - _)%nat with i by lia. exact Hi.
Qed.

Lemma options_follow_switch_witness :
  nth_error (options (attrs sarus_example)) 0 = Some "--workdir=/data"
  /\ nth_error (run_opts sarus_example) 2 = Some "--workdir=/data".
Proof.
  split; [reflexivity |].
  apply (proj2 (options_follow_switch sarus_example) 0%nat "--workdir=/data").
  reflexivity.
Defined.

(** X11. On Docker, Sarus and Shifter the launch line for a command is
    the launch line of the same instance without command or commands,
    followed by a space and the command.  On Singularity it is not: the
    two lines differ in the subcommand. *)
Theorem command_extends_default_line (p : platform) (c : string) :
  c <> "" ->
  (type p <> ClsSingularity ->
   launch_command (update_attrs (set_command (Some c)) p)
   = launch_command
       (update_attrs (set_commands []) (update_attrs (set_command None) p))
     ++ " " ++ c)
  /\ (type p = ClsSingularity ->
      launch_command (update_attrs (set_command (Some c)) p)
      <> launch_command
           (update_attrs (set_commands []) (update_attrs (set_command None) p))
         ++ " " ++ c).
Proof.
  intros Hc.
  assert (Hl : launch_command (update_attrs (set_command (Some c)) p)
               = subcommand p CommandBranch ++ " " ++ join " " (run_opts p) ++ " "
                 ++ format (image (attrs p)) ++ " " ++ c).
  { rewrite launch_command_shape, attrs_update, subcommand_update.
    rewrite run_opts_update by reflexivity.
    rewrite (branch_of_command (set_command (Some c) (attrs p)) c eq_refl Hc).
    reflexivity. }
  assert (Hr : launch_command
                 (update_attrs (set_commands [])
                    (update_attrs (set_command None) p))
               = subcommand p DefaultBranch ++ " " ++ join " " (run_opts p) ++ " "
                 ++ format (image (attrs p))).
  { rewrite launch_command_shape, !attrs_update, !subcommand_update.
    rewrite !run_opts_update by reflexivity.
    cbn [payload branch_of set_commands set_command command commands
         truthy nonempty image].
    now rewrite append_empty_r. }
  rewrite Hl, Hr, !append_assoc_r. split.
  - destruct p; cbn; intros Ht; [reflexivity | reflexivity | reflexivity | congruence].
  - destruct p; cbn; discriminate.
Qed.

Lemma command_extends_default_line_witness :
  launch_command (update_attrs (set_command (Some "ls")) docker_bare)
  = launch_command docker_bare ++ " ls"
  /\ launch_command (update_attrs (set_command (Some "ls")) singularity_bare)
     <> launch_command singularity_bare ++ " ls".
Proof.
  assert (Hc : "ls" <> "") by discriminate.
  split.
  - apply (proj1 (command_extends_default_line docker_bare "ls" Hc)). discriminate.
  - apply (proj2 (command_extends_default_line singularity_bare "ls" Hc)). reflexivity.
Defined.

(** X13. Every backend is invalid as constructed: [validate] rejects it
    and its launch line names no image.  Assigning an image is all it
    takes for [validate] to accept it, and the instance is then left as
    assigned. *)
Theorem constructed_backend_needs_image (c : pyclass) (q : platform) :
  call (PyClass c) = Return (PyInstance q) ->
  validate q = Raise (ContainerError "no image specified")
  /\ launch_command q = subcommand q DefaultBranch ++ "  None"
  /\ forall i, validate (update_attrs (set_image (Some i)) q)
               = Return (tt, update_attrs (set_image (Some i)) q).
Proof.
  destruct c; cbn; intros [= <-]; repeat split.
Qed.

Lemma constructed_backend_needs_image_witness :
  launch_command (ASingularity Singularity.__init__) = "singularity run  None".
Proof.
  apply (constructed_backend_needs_image ClsSingularity
           (ASingularity Singularity.__init__) eq_refl).
Defined.

(** ** Mount flags can be read back *)

(** A string is cut in one way only at the first occurrence of a
    character. *)
Lemma cut_at_char (ch : ascii) (h h' r r' : string) :
  has_char ch h = false -> has_char ch h' = false ->
  h ++ String ch r = h' ++ String ch r' -> h = h' /\ r = r'.
Proof.
  revert h'. induction h as [|x h IH]; intros [|x' h'] Hh Hh' He.
  - injection He as ->. now split.
  - injection He as -> _. cbn in Hh'. now rewrite Ascii.eqb_refl in Hh'.
  - injection He as -> _. cbn in Hh. now rewrite Ascii.eqb_refl in Hh.
  - injection He as -> He. cbn in Hh, Hh'.
    destruct (Ascii.eqb x' ch); [discriminate |].
    destruct (IH h' Hh Hh' He) as [-> ->]. now split.
Qed.

Lemma cut_at_end (ch : ascii) (c c' : string) :
  has_char ch c = false -> has_char ch c' = false ->
  c ++ String ch "" = c' ++ String ch "" -> c = c'.
Proof. intros Hc Hc' He. now destruct (cut_at_char ch c c' "" "" Hc Hc' He). Qed.

(** X14. Mount flags are unambiguous on paths without double quotes
    (and, for the host path on Singularity, without colon): two pairs
    with the same flag are the same pair, so that the mount points can
    be read back from the flags.  Paths are not escaped, though: on
    Docker a double quote in a path lets two different pairs share one
    flag. *)
Theorem mount_flag_injective (p : platform) (mp mp' : string * string) :
  quote_free mp -> quote_free mp' ->
  (type p = ClsSingularity ->
   has_char ":" (fst mp) = false /\ has_char ":" (fst mp') = false) ->
  (mount_flag p mp = mount_flag p mp' -> mp = mp')
  /\ forall (d : Docker.t) (h x c : string),
       mount_flag (ADocker d) (h ++ dq ++ ":" ++ dq ++ x, c)
       = mount_flag (ADocker d) (h, x ++ dq ++ ":" ++ dq ++ c).
Proof.
  destruct mp as [h c], mp' as [h' c'].
  intros [Hh Hc] [Hh' Hc'] Hcolon. cbn [fst snd] in *. split.
  - destruct p as [d | s | s | s]; cbn [mount_flag fst snd]; intros He.
    + injection He as He.
      apply (cut_at_char "034" h h' _ _ Hh Hh') in He as [-> He].
      injection He as He.
      now apply (cut_at_end "034" c c' Hc Hc') in He as ->.
    + injection He as He.
      apply (cut_at_char "034" h h' _ _ Hh Hh') in He as [-> He].
      injection He as He.
      now apply (cut_at_end "034" c c' Hc Hc') in He as ->.
    + injection He as He.
      apply (cut_at_char "034" h h' _ _ Hh Hh') in He as [-> He].
      injection He as He.
      now apply (cut_at_end "034" c c' Hc Hc') in He as ->.
    + destruct (Hcolon eq_refl) as [Hk Hk'].
      injection He as He.
      apply (cut_at_char ":" h h' _ _ Hk Hk') in He as [-> He].
      now apply (cut_at_end "034" c c' Hc Hc') in He as ->.
  - intros d a x b. cbn [mount_flag fst snd].
    now rewrite !append_assoc_r.
Qed.

Lemma mount_flag_injective_witness :
  quote_free ("/scratch", "/data")
  /\ has_char ":" "/scratch" = false
  /\ (mount_flag singularity_example ("/scratch", "/data")
      = "-B" ++ dq ++ "/scratch:/data" ++ dq
      -> ("/scratch", "/data") = ("/scratch", "/data")).
Proof.
  split; [split; reflexivity | split; [reflexivity |]].
  apply (proj1 (mount_flag_injective singularity_example
                  ("/scratch", "/data") ("/scratch", "/data")
                  (conj eq_refl eq_refl) (conj eq_refl eq_refl)
                  (fun _ => conj eq_refl eq_refl))).
Defined.
